(** * Houdini runtime: client pipeline assembly and paginated fragment stores

    A shallow embedding of
      - packages/houdini/src/runtime/client/index.ts          (Module Client)
      - packages/houdini-svelte/src/runtime/stores/pagination/fragment.ts
                                                              (Module Fragment)
    JavaScript objects used as maps are [gmap string _]; exceptions are an
    explicit result type; the observers handed out by the client are values
    with an identity, allocated from a counter in the world. *)

From stdpp Require Import base option list strings gmap fin_maps pretty.

Open Scope string_scope.
Open Scope list_scope.

(** ** JavaScript values *)

(** A JavaScript [Error] carries its message. *)
Record Error := mkError { message : string }.

(** A call either returns or throws. *)
Inductive Result (A : Type) : Type :=
| Ok (a : A)
| Throw (e : Error).
Arguments Ok {A} a.
Arguments Throw {A} e.

Definition bindR {A B} (r : Result A) (k : A -> Result B) : Result B :=
  match r with
  | Ok a => k a
  | Throw e => Throw e
  end.

(** A promise, as seen once it has settled.  The bodies of the [async]
    functions below contain no [await], so each runs to its end inside the
    call and the promise it returns is already settled. *)
Inductive Promise (A : Type) : Type :=
| Fulfilled (a : A)
| Rejected (e : Error).
Arguments Fulfilled {A} a.
Arguments Rejected {A} e.

Definition promise_map {A B} (f : A -> B) (p : Promise A) : Promise B :=
  match p with
  | Fulfilled a => Fulfilled (f a)
  | Rejected e => Rejected e
  end.

(** The values that travel through query variables and cached data.  An
    object is a finite map from property names to values; a promise is an
    object of its own kind, whose state is not a property. *)
#[local] Unset Elimination Schemes.
Inductive JSValue : Type :=
| JSUndefined
| JSNull
| JSBool (b : bool)
| JSNumber (n : Z)
| JSString (s : string)
| JSObject (props : gmap string JSValue)
| JSPromise (settled : Promise JSValue).
#[local] Set Elimination Schemes.

Abbreviation Obj := (gmap string JSValue).

(** ** packages/houdini/src/runtime/client/index.ts *)
Module Client.

(** The functions a caller hands to the client are opaque to the
    constructor; they are told apart by a label. *)
Record FetchParamFn := mkFetchParamFn { fetchParamFn_label : string }.
Record RequestHandler := mkRequestHandler { requestHandler_label : string }.

#[global] Instance FetchParamFn_eq_dec : EqDecision FetchParamFn.
Proof. solve_decision. Defined.
#[global] Instance RequestHandler_eq_dec : EqDecision RequestHandler.
Proof. solve_decision. Defined.

(** The plugins the constructor names (imported from ./plugins), and
    [customPlugin] for any plugin written by the caller or contributed by
    an integration. *)
Inductive ClientPlugin : Type :=
| inputsPlugin
| queryPlugin
| mutationPlugin
| fetchParamsPlugin (fn : FetchParamFn)
| fetchPlugin (fn : option RequestHandler)
| customPlugin (name : string).

#[global] Instance ClientPlugin_eq_dec : EqDecision ClientPlugin.
Proof. solve_decision. Defined.

(** [type ConstructorArgs]: every field but [url] is optional. *)
Record ConstructorArgs := mkArgs {
  url : string;
  fetchParams : option FetchParamFn;
  plugins : option (list ClientPlugin);
  pipeline : option (unit -> list ClientPlugin)
}.

(** [class HoudiniClient]: the public [url] and the private [#plugins]. *)
Record HoudiniClient := mkClient {
  client_url : string;
  client_plugins : list ClientPlugin
}.

(** What [new DocumentObserver({ client, artifact, plugins, cache })] is
    given by [observe]. *)
Record DocumentObserverArgs (Artifact : Type) := mkObserverArgs {
  do_client : HoudiniClient;
  do_artifact : Artifact;
  do_plugins : list ClientPlugin;
  do_cache : bool
}.
Arguments mkObserverArgs {Artifact}.
Arguments do_client {Artifact}.
Arguments do_artifact {Artifact}.
Arguments do_plugins {Artifact}.
Arguments do_cache {Artifact}.

Definition pipeline_and_plugins_error : Error :=
  mkError "A client cannot be given a pipeline and a list of plugins at the same time.".

Section Constructor.
(** [import pluginsFromPlugins from './injectedPlugins']: the plugins
    contributed by the framework integrations. *)
Variable pluginsFromPlugins : list ClientPlugin.

(** The standard set: [[queryPlugin, mutationPlugin].concat(plugins ?? [],
    pluginsFromPlugins, fetchPlugin())]. *)
Definition standard_pipeline (plugins : option (list ClientPlugin))
  : list ClientPlugin :=
  [queryPlugin; mutationPlugin]
    ++ default [] plugins
    ++ pluginsFromPlugins
    ++ [fetchPlugin None].

(** [constructor({ url, fetchParams, plugins, pipeline })].  An array and
    a function are truthy, so [plugins && pipeline] holds exactly when
    both are given. *)
Definition constructor (args : ConstructorArgs) : Result HoudiniClient :=
  match plugins args, pipeline args with
  | Some _, Some _ => Throw pipeline_and_plugins_error
  | _, _ =>
      Ok {| client_url := url args;
            client_plugins :=
              [inputsPlugin]
                ++ match fetchParams args with
                   | Some fp => [fetchParamsPlugin fp]
                   | None => []
                   end
                ++ match pipeline args with
                   | Some p => p tt
                   | None => standard_pipeline (plugins args)
                   end |}
  end.
End Constructor.

(** [observe({ artifact, cache = true })]. *)
Definition observe {Artifact} (this : HoudiniClient) (artifact : Artifact)
    (cache : option bool) : DocumentObserverArgs Artifact :=
  mkObserverArgs this artifact (client_plugins this) (default true cache).

(** Creating an observer from a constructor call: [new HoudiniClient(args)
    .observe({ artifact, cache })]. *)
Definition construct_and_observe {Artifact} (injected : list ClientPlugin)
    (args : ConstructorArgs) (artifact : Artifact) (cache : option bool)
    : Result (DocumentObserverArgs Artifact) :=
  bindR (constructor injected args) (fun c => Ok (observe c artifact cache)).

(** The plugins that execute the network request. *)
Definition is_fetchPlugin (p : ClientPlugin) : bool :=
  match p with fetchPlugin _ => true | _ => false end.

End Client.

(** ** JavaScript object operations used by the stores *)

(** [a || b] tests the truthiness of [a]. *)
Definition truthy (v : JSValue) : bool :=
  match v with
  | JSUndefined | JSNull => false
  | JSBool b => b
  | JSNumber n => negb (Z.eqb n 0)
  | JSString s => negb (String.eqb s "")
  | JSObject _ | JSPromise _ => true
  end.

Definition js_or (a b : JSValue) : JSValue := if truthy a then a else b.

(** [Object.fromEntries(entries)]: entries are written in order, so a later
    entry for a key replaces an earlier one. *)
Definition fromEntries (entries : list (string * JSValue)) : Obj :=
  foldl (fun (o : Obj) (e : string * JSValue) => <[e.1 := e.2]> o) ∅ entries.

(** What [{ ...v }] copies out of [v]: its own enumerable properties.  An
    object gives its properties, a string its characters under their
    indices; [undefined], [null], booleans and numbers give nothing, and
    neither does a Promise instance, whatever it has settled to. *)
Definition own_properties (v : JSValue) : Obj :=
  match v with
  | JSObject o => o
  | JSString s =>
      fromEntries
        (imap (fun (i : nat) (c : Ascii.ascii) => (pretty i, JSString (String c EmptyString)))
              (String.list_ascii_of_string s))
  | _ => ∅
  end.

(** [{ ...target, ...source }]: the properties of [source] are written after
    those of [target] and win on a clash. *)
Definition spread_over (target source : Obj) : Obj := source ∪ target.

(** [async] turns the outcome of a body into a promise: a returned value
    fulfils it, a thrown error rejects it; nothing is thrown to the caller. *)
Definition async {A} (body : Result A) : Promise A :=
  match body with
  | Ok a => Fulfilled a
  | Throw e => Rejected e
  end.

(** An expression of type [Promise<_Input>], as the value it is. *)
Definition promise_of_object (p : Promise Obj) : JSValue :=
  JSPromise (promise_map JSObject p).

(** [value[key]] for [value : _Data | null]: reading a property of [null]
    throws a TypeError, a property an object lacks reads as [undefined]. *)
Definition get_property (value : option Obj) (key : string) : Result JSValue :=
  match value with
  | None => Throw (mkError ("Cannot read properties of null (reading '" +:+ key +:+ "')"))
  | Some o => Ok (default JSUndefined (o !! key))
  end.

(** [keys.map((key) => [key, value[key]])], stopping at the first throw. *)
Fixpoint key_entries (value : option Obj) (keys : list string)
  : Result (list (string * JSValue)) :=
  match keys with
  | [] => Ok []
  | key :: rest =>
      bindR (get_property value key) (fun v =>
      bindR (key_entries value rest) (fun es => Ok ((key, v) :: es)))
  end.

(** The cached value as a JavaScript value. *)
Definition js_of_data (value : option Obj) : JSValue :=
  match value with
  | None => JSNull
  | Some o => JSObject o
  end.

(** ** packages/houdini-svelte/src/runtime/stores/pagination/fragment.ts *)
Module Fragment.
Import Client.

(** *** The types the stores are written against *)

(** [artifact.refetch]: of the refetch description only [targetType] is
    read here. *)
Record RefetchConfig := mkRefetch { targetType : string }.

Record QueryArtifact := mkArtifact {
  artifact_name : string;
  refetch : option RefetchConfig
}.

(** The type configuration of the config file:
    [{ keys, resolve?: { arguments?: (value) => ... } }] per type name. *)
Record TypeResolve := mkResolve { arguments : option (JSValue -> JSValue) }.

Record TypeConfig := mkTypeConfig {
  keys : list string;
  resolve : option TypeResolve
}.

Record ConfigFile := mkConfig { types : option (gmap string TypeConfig) }.

(** The value an observer holds ([FragmentPaginatedResult] and the result
    of a send share these fields). *)
Record QueryResult := mkResult {
  data : option Obj;
  fetching : bool
}.

(** A [DocumentObserver] instance: what it was constructed from, and the
    identity that tells two instances apart. *)
Record DocumentObserver := mkObserver {
  observer_id : nat;
  observer_args : DocumentObserverArgs QueryArtifact
}.

(** The argument of [observer.send]: [variables], [cacheParams] and the
    fields that [...args] carries through untouched (session, policy,
    metadata, ...). *)
Record CacheParams := mkCacheParams { applyUpdates : option bool }.

Record SendParams := mkSend {
  variables : option Obj;
  cacheParams : option CacheParams;
  others : Obj
}.

(** *** The world the stores run in

    The module-level state the code reaches for ([getCurrentConfig],
    [getCurrentClient]), the observers allocated so far with the value each
    one currently holds, and the calls made to [observer.send], oldest
    first. *)
Record World := mkWorld {
  config : ConfigFile;
  client : HoudiniClient;
  next_observer : nat;
  current : nat -> QueryResult;
  sent : list (nat * SendParams)
}.

Definition M (A : Type) : Type := World -> A * World.

Definition ret {A} (a : A) : M A := fun w => (a, w).

Definition bind {A B} (m : M A) (k : A -> M B) : M B :=
  fun w => let (a, w') := m w in k a w'.

Declare Scope store_scope.
Delimit Scope store_scope with store.
Notation "x <- m ;; k" := (bind m (fun x => k))
  (at level 100, m at next level, right associativity) : store_scope.
Open Scope store_scope.

Definition getCurrentConfig : M ConfigFile := fun w => (config w, w).

Definition getCurrentClient : M HoudiniClient := fun w => (client w, w).

(** [get(store)] of svelte/store: the value the store currently holds. *)
Definition get (store : DocumentObserver) : M QueryResult :=
  fun w => (current w (observer_id store), w).

(** [client.observe({ artifact, initialValue })]: [observe] of the client
    reads [artifact] and [cache] only, and builds a new observer. *)
Definition observe (c : HoudiniClient) (artifact : QueryArtifact)
    (initialValue : option Obj) : M DocumentObserver :=
  fun w =>
    (mkObserver (next_observer w) (Client.observe c artifact None),
     mkWorld (config w) (client w) (S (next_observer w)) (current w) (sent w)).

(** What this file imports and is not modelled here: the documentation
    site, the key fields helper of the config module, the promise an
    observer's [send] returns, and the names of the own enumerable
    properties of a [DocumentObserver] instance. *)
Record Runtime := mkRuntime {
  siteURL : string;
  keyFieldsForType : ConfigFile -> string -> list string;
  send_result : nat -> SendParams -> Promise QueryResult;
  observer_own_keys : list string
}.

(** Modelled from the spec: [keyFieldsForType] of
    $houdini/runtime/lib/config is not among the sources; "the configured
    key fields for that type", read off the type-configuration contract
    [{ keys: string[], ... }]. *)
Definition configured_keys (cfg : ConfigFile) (type : string) : list string :=
  match types cfg ≫= (fun ts => ts !! type) with
  | Some tc => keys tc
  | None => []
  end.

(** [class BasePaginatedFragmentStore]: [paginated] and [kind] are
    constants, the constructor stores the other two fields. *)
Record BasePaginatedFragmentStore := mkStore {
  paginationArtifact : QueryArtifact;
  name : string
}.

(** The callbacks and the observer a set of handlers is built from: the
    argument of [cursorHandlers] and of [offsetHandlers]. *)
Record HandlerConfig := mkHandlerConfig {
  hc_artifact : QueryArtifact;
  hc_fetchUpdate : option SendParams -> M (Promise QueryResult);
  hc_fetch : option SendParams -> M (Promise QueryResult);
  hc_observer : DocumentObserver;
  hc_storeName : string
}.

(** A member of the object a store's [get] returns. *)
Inductive Member : Type :=
| KindTag
| DerivedData (store : DocumentObserver)
| Subscribe (store : DocumentObserver) (pageInfo : Member)
| Loading
| Fetch (handlers : HandlerConfig)
| PageInfo (handlers : HandlerConfig)
| LoadNextPage (handlers : HandlerConfig)
| LoadPreviousPage (handlers : HandlerConfig)
| ObserverField (observer : DocumentObserver) (key : string).

(** What [cursorHandlers] returns. *)
Record CursorHandlers := mkCursorHandlers {
  loadNextPage : Member;
  loadPreviousPage : Member;
  pageInfo : Member;
  fetch : Member
}.

(** Modelled from the spec: [cursorHandlers] (./cursor) is not among the
    sources; the handlers it returns "wrap one DocumentObserver" and
    delegate to the observer and the callbacks they were built from. *)
Definition cursorHandlers (c : HandlerConfig) : CursorHandlers :=
  mkCursorHandlers (LoadNextPage c) (LoadPreviousPage c) (PageInfo c) (Fetch c).

(** What [offsetHandlers] returns, as far as the store reads it. *)
Record OffsetHandlers := mkOffsetHandlers {
  offset_loadNextPage : Member;
  offset_fetch : Member
}.

(** Modelled from the spec: [offsetHandlers] (./offset) is not among the
    sources; offset pagination has a [fetch] and a forward [loadNextPage],
    which delegate to the observer and the callbacks they were built
    from. *)
Definition offsetHandlers (c : HandlerConfig) : OffsetHandlers :=
  mkOffsetHandlers (LoadNextPage c) (Fetch c).

(** The observers a member reads from or sends through. *)
Fixpoint member_observers (m : Member) : list nat :=
  match m with
  | KindTag | Loading => []
  | DerivedData store => [observer_id store]
  | Subscribe store pageInfo => observer_id store :: member_observers pageInfo
  | Fetch h | PageInfo h | LoadNextPage h | LoadPreviousPage h =>
      [observer_id (hc_observer h)]
  | ObserverField o _ => [observer_id o]
  end.

(** [`${targetType}`]: an [undefined] prints as "undefined". *)
Definition template (s : option string) : string := default "undefined" s.

(** [args?.variables] and [...args]. *)
Definition args_variables (args : option SendParams) : Obj :=
  default ∅ (args ≫= variables).

Definition args_others (args : option SendParams) : Obj :=
  from_option others ∅ args.

Definition args_cacheParams (args : option SendParams) : option CacheParams :=
  args ≫= cacheParams.

Section Stores.
Variable rt : Runtime.

(** [observer.send(args)]: the call is recorded, the promise is the
    observer's. *)
Definition send (observer : DocumentObserver) (args : SendParams)
  : M (Promise QueryResult) :=
  fun w =>
    (send_result rt (observer_id observer) args,
     mkWorld (config w) (client w) (next_observer w) (current w)
             (sent w ++ [(observer_id observer, args)])).

Definition missing_configuration (targetType : option string) : Error :=
  mkError ("Missing type refetch configuration for " +:+ template targetType
           +:+ ". For more information, see " +:+ siteURL rt
           +:+ "/guides/pagination#paginated-fragments").

(** The body of [queryVariables], given the config and the value read
    from the store. *)
Definition queryVariables_body (this : BasePaginatedFragmentStore)
    (cfg : ConfigFile) (stored : QueryResult) : Result Obj :=
  let targetType := targetType <$> refetch (paginationArtifact this) in
  let typeConfig := types cfg ≫= (fun ts => ts !! default "" targetType) in
  match typeConfig with
  | None => Throw (missing_configuration targetType)
  | Some typeConfig =>
      let value := data stored in
      bindR
        match resolve typeConfig ≫= arguments with
        | Some resolver =>
            Ok (js_or (resolver (js_of_data value)) (JSObject ∅))
        | None =>
            let keys := keyFieldsForType rt cfg (default "" targetType) in
            bindR (key_entries value keys)
                  (fun entries => Ok (JSObject (fromEntries entries)))
        end
        (fun idVariables => Ok (own_properties idVariables))
  end.

(** [protected async queryVariables(store)]. *)
Definition queryVariables (this : BasePaginatedFragmentStore)
    (store : DocumentObserver) : M (Promise Obj) :=
  cfg <- getCurrentConfig ;;
  stored <- get store ;;
  ret (async (queryVariables_body this cfg stored)).

(** [FragmentStoreCursor.storeHandlers]: the [fetchUpdate] callback.  The
    promise of [queryVariables] is spread as it is. *)
Definition storeHandlers_fetchUpdate (this : BasePaginatedFragmentStore)
    (observer : DocumentObserver) (args : option SendParams)
  : M (Promise QueryResult) :=
  idVariables <- queryVariables this observer ;;
  send observer
    {| variables :=
         Some (spread_over (args_variables args)
                           (own_properties (promise_of_object idVariables)));
       cacheParams := Some (mkCacheParams (Some true));
       others := args_others args |}.

(** [FragmentStoreCursor.storeHandlers]: the [fetch] callback. *)
Definition storeHandlers_fetch (this : BasePaginatedFragmentStore)
    (observer : DocumentObserver) (args : option SendParams)
  : M (Promise QueryResult) :=
  idVariables <- queryVariables this observer ;;
  send observer
    {| variables :=
         Some (spread_over (args_variables args)
                           (own_properties (promise_of_object idVariables)));
       cacheParams := args_cacheParams args;
       others := args_others args |}.

(** [FragmentStoreCursor.storeHandlers]: the argument it builds for
    [cursorHandlers]. *)
Definition storeHandlers_config (this : BasePaginatedFragmentStore)
    (observer : DocumentObserver) : HandlerConfig :=
  {| hc_artifact := paginationArtifact this;
     hc_fetchUpdate := storeHandlers_fetchUpdate this observer;
     hc_fetch := storeHandlers_fetch this observer;
     hc_observer := observer;
     hc_storeName := name this |}.

Definition storeHandlers (this : BasePaginatedFragmentStore)
    (observer : DocumentObserver) : CursorHandlers :=
  cursorHandlers (storeHandlers_config this observer).

(** [FragmentStoreCursor.get(initialValue)]. *)
Definition FragmentStoreCursor_get (this : BasePaginatedFragmentStore)
    (initialValue : option Obj) : M (gmap string Member) :=
  c <- getCurrentClient ;;
  store <- observe c (paginationArtifact this) initialValue ;;
  let handlers := storeHandlers this store in
  let subscribe := Subscribe store (pageInfo handlers) in
  ret (<["pageInfo" := pageInfo handlers]>
       (<["fetch" := fetch handlers]>
       (<["loading" := Loading]>
       (<["subscribe" := subscribe]>
       (<["data" := DerivedData store]>
       (<["kind" := KindTag]> ∅)))))).

(** [FragmentStoreForwardCursor.get(initialValue)]. *)
Definition FragmentStoreForwardCursor_get (this : BasePaginatedFragmentStore)
    (initialValue : option Obj) : M (gmap string Member) :=
  parent <- FragmentStoreCursor_get this initialValue ;;
  c <- getCurrentClient ;;
  observer <- observe c (paginationArtifact this) initialValue ;;
  let handlers := storeHandlers this observer in
  ret (<["loadNextPage" := loadNextPage handlers]> parent).

(** [FragmentStoreBackwardCursor.get(initialValue)]. *)
Definition FragmentStoreBackwardCursor_get (this : BasePaginatedFragmentStore)
    (initialValue : option Obj) : M (gmap string Member) :=
  parent <- FragmentStoreCursor_get this initialValue ;;
  c <- getCurrentClient ;;
  observer <- observe c (paginationArtifact this) initialValue ;;
  let handlers := storeHandlers this observer in
  ret (<["loadPreviousPage" := loadPreviousPage handlers]> parent).

(** [FragmentStoreOffset.get]: the [fetch] callback. *)
Definition offset_fetch_callback (this : BasePaginatedFragmentStore)
    (observer : DocumentObserver) (args : option SendParams)
  : M (Promise QueryResult) :=
  idVariables <- queryVariables this observer ;;
  send observer
    {| variables :=
         Some (spread_over (args_variables args)
                           (own_properties (promise_of_object idVariables)));
       cacheParams := args_cacheParams args;
       others := args_others args |}.

(** [FragmentStoreOffset.get]: the [fetchUpdate] callback. *)
Definition offset_fetchUpdate_callback (this : BasePaginatedFragmentStore)
    (observer : DocumentObserver) (args : option SendParams)
  : M (Promise QueryResult) :=
  idVariables <- queryVariables this observer ;;
  send observer
    {| variables :=
         Some (spread_over (args_variables args)
                           (own_properties (promise_of_object idVariables)));
       cacheParams := Some (mkCacheParams (Some true));
       others := args_others args |}.

(** [{ ...observer }]: one member per own enumerable property. *)
Definition observer_members (observer : DocumentObserver) : gmap string Member :=
  foldl (fun (o : gmap string Member) (key : string) =>
           <[key := ObserverField observer key]> o)
        ∅ (observer_own_keys rt).

(** [FragmentStoreOffset.get(initialValue)]. *)
Definition FragmentStoreOffset_get (this : BasePaginatedFragmentStore)
    (initialValue : option Obj) : M (gmap string Member) :=
  c <- getCurrentClient ;;
  observer <- observe c (paginationArtifact this) initialValue ;;
  let handlers :=
    offsetHandlers
      {| hc_artifact := paginationArtifact this;
         hc_fetch := offset_fetch_callback this observer;
         hc_fetchUpdate := offset_fetchUpdate_callback this observer;
         hc_observer := observer;
         hc_storeName := name this |} in
  ret (<["loadNextPage" := offset_loadNextPage handlers]>
       (<["fetch" := offset_fetch handlers]>
       (<["kind" := KindTag]> (observer_members observer)))).
End Stores.

(** The three stores this file exports. *)
Inductive StoreClass := ForwardCursor | BackwardCursor | Offset.

Definition store_get (rt : Runtime) (cls : StoreClass)
  : BasePaginatedFragmentStore -> option Obj -> M (gmap string Member) :=
  match cls with
  | ForwardCursor => FragmentStoreForwardCursor_get rt
  | BackwardCursor => FragmentStoreBackwardCursor_get rt
  | Offset => FragmentStoreOffset_get rt
  end.

(** The four callbacks through which a store reaches [observer.send]. *)
Inductive Operation :=
| CursorFetchUpdate | CursorFetch | OffsetFetch | OffsetFetchUpdate.

Definition run_operation (rt : Runtime) (op : Operation)
  : BasePaginatedFragmentStore -> DocumentObserver -> option SendParams
    -> M (Promise QueryResult) :=
  match op with
  | CursorFetchUpdate => storeHandlers_fetchUpdate rt
  | CursorFetch => storeHandlers_fetch rt
  | OffsetFetch => offset_fetch_callback rt
  | OffsetFetchUpdate => offset_fetchUpdate_callback rt
  end.

Definition is_incremental (op : Operation) : bool :=
  match op with
  | CursorFetchUpdate | OffsetFetchUpdate => true
  | CursorFetch | OffsetFetch => false
  end.

(** The cache parameters an operation hands to [send], read off the four
    callbacks. *)
Definition operation_cacheParams (op : Operation) (args : option SendParams)
  : option CacheParams :=
  if is_incremental op then Some (mkCacheParams (Some true))
  else args_cacheParams args.

(** The most recent call to [send]. *)
Definition last_sent (w : World) : option (nat * SendParams) := last (sent w).

(** The variables and the cache parameters of the most recent call. *)
Definition last_variables (w : World) : option Obj :=
  match last_sent w with
  | Some (_, params) => variables params
  | None => None
  end.

Definition last_cacheParams (w : World) : option CacheParams :=
  match last_sent w with
  | Some (_, params) => cacheParams params
  | None => None
  end.

Definition is_LoadNextPage (m : Member) : bool :=
  match m with LoadNextPage _ => true | _ => false end.

Definition is_LoadPreviousPage (m : Member) : bool :=
  match m with LoadPreviousPage _ => true | _ => false end.

(** The observers behind the member of a handle, by property name. *)
Definition observers_behind (handle : gmap string Member) (key : string)
  : option (list nat) :=
  member_observers <$> handle !! key.

(** [FragmentStoreOffset.get]: the argument it builds for
    [offsetHandlers]. *)
Definition offsetHandlers_config (rt : Runtime) (this : BasePaginatedFragmentStore)
    (observer : DocumentObserver) : HandlerConfig :=
  {| hc_artifact := paginationArtifact this;
     hc_fetch := offset_fetch_callback rt this observer;
     hc_fetchUpdate := offset_fetchUpdate_callback rt this observer;
     hc_observer := observer;
     hc_storeName := name this |}.

(** The handlers configuration a member of a handle was taken from, for the
    members that come out of [cursorHandlers] or [offsetHandlers]. *)
Definition member_config (m : Member) : option HandlerConfig :=
  match m with
  | Fetch h | PageInfo h | LoadNextPage h | LoadPreviousPage h => Some h
  | KindTag | DerivedData _ | Subscribe _ _ | Loading | ObserverField _ _ => None
  end.

End Fragment.

(** ** Concrete inputs

    A client at https://api.test/graphql, a store paginating a fragment on
    [User], and worlds in which the one observer allocated so far holds the
    cached value [{ id: "42" }]. *)
Module Scenario.
Import Client Fragment.

(** Every send resolves with an empty result; a [DocumentObserver] instance
    has its [state] as only own enumerable property. *)
Definition runtime : Runtime :=
  mkRuntime "https://houdinigraphql.com" configured_keys
            (fun _ _ => Fulfilled (mkResult None false)) ["state"].

Definition api_client : HoudiniClient :=
  mkClient "https://api.test/graphql"
           [inputsPlugin; queryPlugin; mutationPlugin; fetchPlugin None].

Definition user_artifact : QueryArtifact :=
  mkArtifact "UserFriends_Pagination_Query" (Some (mkRefetch "User")).

Definition user_store : BasePaginatedFragmentStore :=
  mkStore user_artifact "UserFriends".

Definition cached_user : Obj := {[ "id" := JSString "42" ]}.

(** [types: { User: { keys: ["id"] } }], no custom resolver. *)
Definition keyed_config : ConfigFile :=
  mkConfig (Some {[ "User" := mkTypeConfig ["id"] None ]}).

(** [types: { User: { keys: ["id"], resolve: { arguments: (user) =>
    ({ userID: user.id }) } } }]. *)
Definition userID_resolver (value : JSValue) : JSValue :=
  match value with
  | JSObject user => JSObject {[ "userID" := default JSUndefined (user !! "id") ]}
  | _ => JSObject ∅
  end.

Definition resolver_config : ConfigFile :=
  mkConfig (Some {[ "User" := mkTypeConfig ["id"]
                                (Some (mkResolve (Some userID_resolver))) ]}).

(** A config file that configures another type only. *)
Definition unrelated_config : ConfigFile :=
  mkConfig (Some {[ "Post" := mkTypeConfig ["id"] None ]}).

Definition world_with (cfg : ConfigFile) : World :=
  mkWorld cfg api_client 1 (fun _ => mkResult (Some cached_user) false) [].

Definition keyed_world : World := world_with keyed_config.
Definition resolver_world : World := world_with resolver_config.
Definition unconfigured_world : World := world_with unrelated_config.

Definition user_observer : DocumentObserver :=
  mkObserver 0 (Client.observe api_client user_artifact None).

(** [{ variables: { first: 10 } }], as a forward cursor page load passes. *)
Definition next_page_args : SendParams :=
  mkSend (Some {[ "first" := JSNumber 10 ]}) None ∅.

(** [{ variables: { offset: 10, limit: 10 } }], as an offset page load
    passes. *)
Definition offset_page_args : SendParams :=
  mkSend (Some (<["offset" := JSNumber 10]> {[ "limit" := JSNumber 10 ]})) None ∅.

Definition missing_User_message : string :=
  "Missing type refetch configuration for User. For more information, see https://houdinigraphql.com/guides/pagination#paginated-fragments".
(** A world in which the observer holds no data yet ([data: null]). *)
Definition null_world : World :=
  mkWorld keyed_config api_client 1 (fun _ => mkResult None false) [].

(** [types: { User: { keys: [] } }]. *)
Definition keyless_config : ConfigFile :=
  mkConfig (Some {[ "User" := mkTypeConfig [] None ]}).

Definition keyless_null_world : World :=
  mkWorld keyless_config api_client 1 (fun _ => mkResult None false) [].

(** A resolver that returns nothing. *)
Definition silent_resolver (value : JSValue) : JSValue := JSUndefined.

Definition silent_config : ConfigFile :=
  mkConfig (Some {[ "User" := mkTypeConfig ["id"]
                                (Some (mkResolve (Some silent_resolver))) ]}).

Definition silent_world : World := world_with silent_config.



(** A runtime that lists the key fields of a type twice over, backwards. *)
Definition doubled_runtime : Runtime :=
  mkRuntime "https://houdinigraphql.com"
            (fun cfg type => reverse (configured_keys cfg type ++ configured_keys cfg type))
            (fun _ _ => Fulfilled (mkResult None false)) ["state"].

(** A cached user with more fields than the key. *)
Definition detailed_user : Obj :=
  <["name" := JSString "Ada"]> cached_user.

Definition detailed_world : World :=
  mkWorld keyed_config api_client 1 (fun _ => mkResult (Some detailed_user) false) [].

(** Two observers: the first holds the bare user, every other one the
    detailed user. *)
Definition two_users_world : World :=
  mkWorld keyed_config api_client 2
          (fun i => mkResult (Some (if Nat.eqb i 0 then cached_user else detailed_user))
                             false)
          [].

Definition second_observer : DocumentObserver :=
  mkObserver 1 (Client.observe api_client user_artifact None).

(** A cached value without the key field. *)
Definition anonymous_user : Obj := {[ "name" := JSString "Ada" ]}.

Definition anonymous_world : World :=
  mkWorld keyed_config api_client 1 (fun _ => mkResult (Some anonymous_user) false) [].

(** The keyed world after some traffic: more observers, one send on
    record. *)
Definition busy_world : World :=
  mkWorld keyed_config api_client 5 (fun _ => mkResult (Some cached_user) false)
          [(3, next_page_args)].

(** A client as the constructor builds it from a url alone. *)
Definition plain_args : ConstructorArgs :=
  mkArgs "https://api.test/graphql" None None None.
End Scenario.

(** * Properties of the client constructor *)

Module ClientProps.
Import Client.

(** The optional fetch-parameter plugin, as a list. *)
Lemma fetchParams_part (fp : option FetchParamFn) :
  match fp with Some f => [fetchParamsPlugin f] | None => [] end
  = option_list (fetchParamsPlugin <$> fp).
Proof. by destruct fp. Qed.

(** A constructor call that returns builds its list on [inputsPlugin]. *)
Lemma constructor_ok_inv injected args c :
  constructor injected args = Ok c ->
  client_url c = url args /\
  client_plugins c =
    inputsPlugin ::
      option_list (fetchParamsPlugin <$> fetchParams args)
      ++ match pipeline args with
         | Some p => p tt
         | None => standard_pipeline injected (plugins args)
         end.
Proof.
  unfold constructor. rewrite fetchParams_part.
  destruct (plugins args), (pipeline args); intros H; inversion H; auto.
Qed.

(** C1: a constructor call whose arguments carry both a [plugins] list and
    a [pipeline] function throws the configuration error, synchronously:
    the call yields no client, and the attempt to observe through it
    yields no observer. *)
Theorem constructor_rejects_plugins_with_pipeline
    (injected : list ClientPlugin) (args : ConstructorArgs)
    (ps : list ClientPlugin) (p : unit -> list ClientPlugin) :
  plugins args = Some ps ->
  pipeline args = Some p ->
  constructor injected args = Throw pipeline_and_plugins_error
  /\ (forall c, constructor injected args <> Ok c)
  /\ (forall (Artifact : Type) (artifact : Artifact) cache,
        construct_and_observe injected args artifact cache
        = Throw pipeline_and_plugins_error).
Proof.
  intros Hps Hp.
  assert (Hthrow : constructor injected args = Throw pipeline_and_plugins_error).
  { unfold constructor. by rewrite Hps, Hp. }
  split; [exact Hthrow |]. split.
  - intros c Hc. congruence.
  - intros Artifact artifact cache. unfold construct_and_observe.
    by rewrite Hthrow.
Qed.

Lemma constructor_rejects_plugins_with_pipeline_witness :
  let args := mkArgs "https://api.test/graphql" None (Some [])
                     (Some (fun _ => [queryPlugin; fetchPlugin None])) in
  plugins args = Some []
  /\ constructor [] args = Throw pipeline_and_plugins_error
  /\ construct_and_observe [] args "AllUsers" None
     = Throw pipeline_and_plugins_error.
Proof.
  intros args.
  pose proof (constructor_rejects_plugins_with_pipeline
                [] args [] (fun _ => [queryPlugin; fetchPlugin None])
                eq_refl eq_refl) as (H1 & _ & H3).
  split; [reflexivity |]. split; [exact H1 | exact (H3 string "AllUsers" None)].
Defined.

(** C4: whatever the arguments (custom pipeline, plugin list or neither,
    with or without [fetchParams]), a constructed client has
    [inputsPlugin] as the first element of its plugin list, and so does
    the list every observer made from it is handed. *)
Theorem inputsPlugin_is_first
    (injected : list ClientPlugin) (args : ConstructorArgs) (c : HoudiniClient) :
  constructor injected args = Ok c ->
  (exists rest, client_plugins c = inputsPlugin :: rest)
  /\ (forall (Artifact : Type) (artifact : Artifact) cache,
        head (do_plugins (observe c artifact cache)) = Some inputsPlugin).
Proof.
  intros Hc. destruct (constructor_ok_inv _ _ _ Hc) as [_ Hl]. split.
  - eexists. exact Hl.
  - intros Artifact artifact cache. simpl. by rewrite Hl.
Qed.

Lemma inputsPlugin_is_first_witness :
  let args := mkArgs "https://api.test/graphql"
                     (Some (mkFetchParamFn "headers")) None
                     (Some (fun _ => [customPlugin "logger"])) in
  exists c, constructor [customPlugin "svelte"] args = Ok c
            /\ head (client_plugins c) = Some inputsPlugin.
Proof.
  intros args. eexists. split; [reflexivity |].
  destruct (inputsPlugin_is_first [customPlugin "svelte"] args _ eq_refl)
    as [[rest Hrest] _].
  rewrite Hrest. reflexivity.
Defined.

(** C5: without a [pipeline], the plugin list is, in this order:
    [inputsPlugin]; the fetch-parameter plugin exactly when [fetchParams]
    is given; [queryPlugin]; [mutationPlugin]; the caller's plugins in
    their order; the injected plugins; the fetch plugin. *)
Theorem standard_pipeline_order
    (injected : list ClientPlugin) (u : string)
    (fp : option FetchParamFn) (ps : option (list ClientPlugin)) :
  constructor injected (mkArgs u fp ps None)
  = Ok (mkClient u
          ([inputsPlugin]
             ++ option_list (fetchParamsPlugin <$> fp)
             ++ [queryPlugin; mutationPlugin]
             ++ default [] ps
             ++ injected
             ++ [fetchPlugin None])).
Proof.
  unfold constructor, standard_pipeline. simpl.
  rewrite fetchParams_part. by destruct ps.
Qed.

(** C6, as it is written, fails: with a custom pipeline the constructor
    appends no fetch plugin.  Here the pipeline returns one plugin and the
    list ends with it. *)
Lemma custom_pipeline_without_fetchPlugin :
  ~ (forall injected u fp p c,
       constructor injected (mkArgs u fp None (Some p)) = Ok c ->
       exists net,
         is_fetchPlugin net = true
         /\ client_plugins c
            = [inputsPlugin] ++ option_list (fetchParamsPlugin <$> fp)
                ++ p tt ++ [net]).
Proof.
  intros H.
  destruct (H [] "https://api.test/graphql" None
              (fun _ => [customPlugin "logger"]) _ eq_refl)
    as (net & _ & Hl).
  simpl in Hl. discriminate Hl.
Qed.

(** C6, amended: with a custom [pipeline] the plugin list is
    [inputsPlugin], the fetch-parameter plugin when [fetchParams] is
    given, and the plugins the pipeline returns, verbatim and nothing
    after them: neither [queryPlugin] and [mutationPlugin], nor the
    injected plugins, nor a fetch plugin is added. *)
Theorem custom_pipeline_verbatim
    (injected : list ClientPlugin) (u : string)
    (fp : option FetchParamFn) (p : unit -> list ClientPlugin) :
  constructor injected (mkArgs u fp None (Some p))
  = Ok (mkClient u
          ([inputsPlugin] ++ option_list (fetchParamsPlugin <$> fp) ++ p tt)).
Proof.
  unfold constructor. simpl. by rewrite fetchParams_part.
Qed.

End ClientProps.

(** * Properties of the paginated fragment stores *)

Module FragmentProps.
Import Client Fragment.

(** ** Objects built key by key *)

Section KeyedObjects.
Context {V : Type}.

(** Writing [f key] under every [key] of a list, over [acc]. *)
Lemma lookup_foldl_insert (f : string -> V) (ks : list string)
    (acc : gmap string V) (k : string) :
  foldl (fun (o : gmap string V) key => <[key := f key]> o) acc ks !! k
  = if decide (k ∈ ks) then Some (f k) else acc !! k.
Proof.
  revert acc. induction ks as [| key ks IH]; intros acc; cbn [foldl].
  - destruct (decide (k ∈ [])) as [Hin | _]; [| done].
    by apply elem_of_nil in Hin.
  - rewrite IH.
    destruct (decide (k ∈ ks)) as [Hin | Hnin],
             (decide (k ∈ key :: ks)) as [Hin' | Hnin']; try done.
    + exfalso. apply Hnin'. apply elem_of_cons. by right.
    + apply elem_of_cons in Hin' as [-> | Hin']; [| done].
      by rewrite lookup_insert_eq.
    + rewrite lookup_insert_ne; [done |].
      intros ->. apply Hnin'. apply elem_of_cons. by left.
Qed.

Lemma map_Forall_foldl_insert (P : string -> V -> Prop) (f : string -> V)
    (ks : list string) (acc : gmap string V) :
  (forall key, P key (f key)) ->
  map_Forall P acc ->
  map_Forall P (foldl (fun (o : gmap string V) key => <[key := f key]> o) acc ks).
Proof.
  intros Hf. revert acc. induction ks as [| key ks IH]; intros acc Hacc; simpl.
  - exact Hacc.
  - apply IH. by apply map_Forall_insert_2.
Qed.
End KeyedObjects.

Lemma key_entries_object (v : Obj) (ks : list string) :
  key_entries (Some v) ks
  = Ok ((fun key => (key, default JSUndefined (v !! key))) <$> ks).
Proof.
  induction ks as [| key ks IH]; simpl; [done |]. by rewrite IH.
Qed.

Lemma lookup_fromEntries_keys (f : string -> JSValue) (ks : list string) (k : string) :
  fromEntries ((fun key => (key, f key)) <$> ks) !! k
  = if decide (k ∈ ks) then Some (f k) else None.
Proof.
  unfold fromEntries. rewrite foldl_fmap. simpl.
  rewrite (lookup_foldl_insert f ks ∅ k). by rewrite lookup_empty.
Qed.

(** ** What the four callbacks do *)

Lemma queryVariables_run rt this store w :
  queryVariables rt this store w
  = (async (queryVariables_body rt this (config w) (current w (observer_id store))), w).
Proof. reflexivity. Qed.

(** Every callback calls [send] once, on the observer it closes over, with
    the caller's variables and nothing from [queryVariables]. *)
Lemma run_operation_sends rt op this observer args w :
  let params :=
    mkSend (Some (args_variables args)) (operation_cacheParams op args)
           (args_others args) in
  run_operation rt op this observer args w
  = (send_result rt (observer_id observer) params,
     mkWorld (config w) (client w) (next_observer w) (current w)
             (sent w ++ [(observer_id observer, params)])).
Proof.
  destruct op; simpl;
    unfold storeHandlers_fetchUpdate, storeHandlers_fetch,
      offset_fetch_callback, offset_fetchUpdate_callback,
      bind, send, operation_cacheParams, spread_over,
      promise_of_object, own_properties;
    rewrite queryVariables_run; simpl;
    by rewrite (left_id_L ∅ (∪)).
Qed.

Lemma last_sent_run_operation rt op this observer args w :
  last_sent (run_operation rt op this observer args w).2
  = Some (observer_id observer,
          mkSend (Some (args_variables args)) (operation_cacheParams op args)
                 (args_others args)).
Proof.
  rewrite run_operation_sends. unfold last_sent. simpl. apply last_snoc.
Qed.

(** ** [queryVariables] *)

(** C7: when the target type is configured, the promise [queryVariables]
    returns is fulfilled with the record the custom argument resolver
    gives for the current cached value, if the type's configuration
    declares one; otherwise with the object that maps each key field of
    the type to the value of that field in the current cached value.  In
    particular, with key fields ["id"], cached value [{ id: "42" }] and no
    resolver, it resolves to [{ id: "42" }]. *)
Theorem queryVariables_resolves
    (rt : Runtime) (this : BasePaginatedFragmentStore)
    (store : DocumentObserver) (w : World) (tc : TypeConfig) :
  let target := default "" (targetType <$> refetch (paginationArtifact this)) in
  let value := data (current w (observer_id store)) in
  types (config w) ≫= (fun ts => ts !! target) = Some tc ->
  (forall res resolver o,
      resolve tc = Some res ->
      arguments res = Some resolver ->
      resolver (js_of_data value) = JSObject o ->
      queryVariables rt this store w = (Fulfilled o, w))
  /\ (forall v,
        resolve tc ≫= arguments = None ->
        value = Some v ->
        exists m,
          queryVariables rt this store w = (Fulfilled m, w)
          /\ forall k,
               m !! k
               = if decide (k ∈ keyFieldsForType rt (config w) target)
                 then Some (default JSUndefined (v !! k))
                 else None)
  /\ (resolve tc ≫= arguments = None ->
      keyFieldsForType rt (config w) target = ["id"] ->
      value = Some {[ "id" := JSString "42" ]} ->
      queryVariables rt this store w
      = (Fulfilled {[ "id" := JSString "42" ]}, w)).
Proof.
  intros target value Htc.
  assert (Hkeys : forall v,
             resolve tc ≫= arguments = None ->
             value = Some v ->
             queryVariables rt this store w
             = (Fulfilled
                  (fromEntries
                     ((fun key => (key, default JSUndefined (v !! key)))
                        <$> keyFieldsForType rt (config w) target)), w)).
  { intros v Hnone Hv. rewrite queryVariables_run.
    unfold queryVariables_body. fold target. rewrite Htc.
    fold value. rewrite Hnone, Hv, key_entries_object. reflexivity. }
  split; [| split].
  - intros res resolver o Hres Harg Ho. rewrite queryVariables_run.
    unfold queryVariables_body. fold target. rewrite Htc.
    fold value. rewrite Hres. simpl. rewrite Harg, Ho. reflexivity.
  - intros v Hnone Hv. eexists. split; [by apply Hkeys |].
    intros k. apply lookup_fromEntries_keys.
  - intros Hnone Hid Hv. rewrite (Hkeys _ Hnone Hv), Hid. reflexivity.
Qed.

Lemma queryVariables_resolves_witness :
  (types (config Scenario.keyed_world) ≫= (fun ts => ts !! "User")
   = Some (mkTypeConfig ["id"] None)
   /\ queryVariables Scenario.runtime Scenario.user_store
        Scenario.user_observer Scenario.keyed_world
      = (Fulfilled {[ "id" := JSString "42" ]}, Scenario.keyed_world))
  /\ queryVariables Scenario.runtime Scenario.user_store
       Scenario.user_observer Scenario.resolver_world
     = (Fulfilled {[ "userID" := JSString "42" ]}, Scenario.resolver_world).
Proof.
  split; [split; [reflexivity |] |].
  - apply (queryVariables_resolves Scenario.runtime Scenario.user_store
             Scenario.user_observer Scenario.keyed_world
             (mkTypeConfig ["id"] None) eq_refl);
      reflexivity.
  - apply (proj1 (queryVariables_resolves Scenario.runtime Scenario.user_store
             Scenario.user_observer Scenario.resolver_world
             (mkTypeConfig ["id"] (Some (mkResolve (Some Scenario.userID_resolver))))
             eq_refl)
             (mkResolve (Some Scenario.userID_resolver))
             Scenario.userID_resolver);
      reflexivity.
Defined.

(** ** The variables and cache parameters handed to [send] *)

(** C2 fails on the code: each of the four callbacks spreads the promise
    of [queryVariables] without awaiting it, and a promise has no
    property to copy.  With [User] keyed by ["id"] and cached value
    [{ id: "42" }], [queryVariables] resolves to [{ id: "42" }], yet the
    variables handed to [send] are the caller's alone; for a page load
    asking for [{ first: 10 }] they hold no [id]. *)
Theorem page_fetch_omits_identity_variables
    (op : Operation) (args : option SendParams) :
  (queryVariables Scenario.runtime Scenario.user_store
     Scenario.user_observer Scenario.keyed_world).1
  = Fulfilled Scenario.cached_user
  /\ last_variables
       (run_operation Scenario.runtime op Scenario.user_store
          Scenario.user_observer args Scenario.keyed_world).2
     = Some (args_variables args)
  /\ (exists vars : Obj,
        last_variables
          (run_operation Scenario.runtime op Scenario.user_store
             Scenario.user_observer (Some Scenario.next_page_args)
             Scenario.keyed_world).2
        = Some vars
        /\ vars !! "first" = Some (JSNumber 10)
        /\ vars !! "id" = None).
Proof.
  split; [reflexivity |]. unfold last_variables.
  rewrite !last_sent_run_operation. split; [reflexivity |].
  eexists. split; [reflexivity |]. split; reflexivity.
Qed.

(** C3 fails on the code: with no configuration for the target type the
    error of [queryVariables] rejects the promise it returns, which no
    callback awaits.  Each callback goes on to call [send], once, and
    returns what [send] returns. *)
Theorem missing_type_configuration_still_sends (op : Operation) :
  (queryVariables Scenario.runtime Scenario.user_store
     Scenario.user_observer Scenario.unconfigured_world).1
  = Rejected (mkError Scenario.missing_User_message)
  /\ (run_operation Scenario.runtime op Scenario.user_store
        Scenario.user_observer (Some Scenario.offset_page_args)
        Scenario.unconfigured_world).1
     = Fulfilled (mkResult None false)
  /\ sent (run_operation Scenario.runtime op Scenario.user_store
             Scenario.user_observer (Some Scenario.offset_page_args)
             Scenario.unconfigured_world).2
     = [(0, mkSend (variables Scenario.offset_page_args)
                   (operation_cacheParams op (Some Scenario.offset_page_args))
                   ∅)].
Proof.
  split; [reflexivity |]. rewrite run_operation_sends. split; reflexivity.
Qed.

(** C8: the [fetchUpdate] callbacks of the cursor and of the offset store
    call [send] with [cacheParams.applyUpdates] true, whatever the caller
    passed; the [fetch] callbacks add no cache parameter: [send] receives
    those of the caller, hence none for a caller that passes no argument
    or an argument without [cacheParams].  Each call sends once. *)
Theorem applyUpdates_only_on_page_loads
    (rt : Runtime) (this : BasePaginatedFragmentStore)
    (observer : DocumentObserver) (args : option SendParams)
    (vars : option Obj) (rest : Obj) (w : World) :
  let sent_cacheParams op a :=
    last_cacheParams (run_operation rt op this observer a w).2 in
  (sent_cacheParams CursorFetchUpdate args = Some (mkCacheParams (Some true))
   /\ sent_cacheParams OffsetFetchUpdate args = Some (mkCacheParams (Some true)))
  /\ (sent_cacheParams CursorFetch args = args_cacheParams args
      /\ sent_cacheParams OffsetFetch args = args_cacheParams args)
  /\ (sent_cacheParams CursorFetch None = None
      /\ sent_cacheParams OffsetFetch None = None
      /\ sent_cacheParams CursorFetch (Some (mkSend vars None rest)) = None
      /\ sent_cacheParams OffsetFetch (Some (mkSend vars None rest)) = None)
  /\ (forall op,
        length (sent (run_operation rt op this observer args w).2)
        = S (length (sent w))).
Proof.
  intros sent_cacheParams. unfold sent_cacheParams, last_cacheParams.
  rewrite !last_sent_run_operation. repeat split.
  intros op. rewrite run_operation_sends. simpl.
  rewrite length_app. simpl. lia.
Qed.

(** ** The handles [get] returns *)

Lemma observer_members_lookup rt observer k :
  observer_members rt observer !! k
  = if decide (k ∈ observer_own_keys rt)
    then Some (ObserverField observer k) else None.
Proof.
  unfold observer_members.
  rewrite (lookup_foldl_insert (ObserverField observer)). by rewrite lookup_empty.
Qed.

Lemma observer_members_fields rt observer (P : Member -> Prop) :
  (forall key, P (ObserverField observer key)) ->
  map_Forall (fun _ m => P m) (observer_members rt observer).
Proof.
  intros HP. unfold observer_members.
  apply (map_Forall_foldl_insert (fun _ m => P m) (ObserverField observer)).
  - exact HP.
  - apply map_Forall_empty.
Qed.

(** C9 fails on the code for both cursor stores: [get] creates one
    observer in the base class and a second one in the subclass.  In the
    handle, [subscribe], [data], [fetch] and [pageInfo] are bound to the
    first, while [loadNextPage] (or [loadPreviousPage]) is bound to the
    second, and the callback behind it sends through the second.  The
    offset store binds [fetch] and [loadNextPage] to one observer. *)
Theorem cursor_handles_use_two_observers
    (rt : Runtime) (this : BasePaginatedFragmentStore)
    (initialValue : option Obj) (w : World) :
  let n := next_observer w in
  let forward := (FragmentStoreForwardCursor_get rt this initialValue w).1 in
  let backward := (FragmentStoreBackwardCursor_get rt this initialValue w).1 in
  let offset := (FragmentStoreOffset_get rt this initialValue w).1 in
  (observers_behind forward "subscribe" = Some [n; n]
   /\ observers_behind forward "data" = Some [n]
   /\ observers_behind forward "fetch" = Some [n]
   /\ observers_behind forward "pageInfo" = Some [n]
   /\ observers_behind forward "loadNextPage" = Some [S n])
  /\ (observers_behind backward "subscribe" = Some [n; n]
      /\ observers_behind backward "data" = Some [n]
      /\ observers_behind backward "fetch" = Some [n]
      /\ observers_behind backward "pageInfo" = Some [n]
      /\ observers_behind backward "loadPreviousPage" = Some [S n])
  /\ (exists page load,
        forward !! "loadNextPage" = Some (LoadNextPage page)
        /\ forward !! "fetch" = Some (Fetch load)
        /\ forall args w',
             (fst <$> last_sent (hc_fetchUpdate page args w').2) = Some (S n)
             /\ (fst <$> last_sent (hc_fetch load args w').2) = Some n)
  /\ (observers_behind offset "fetch" = Some [n]
      /\ observers_behind offset "loadNextPage" = Some [n]).
Proof.
  intros n forward backward offset.
  split; [repeat split |]. split; [repeat split |]. split.
  - eexists _, _. split; [reflexivity |]. split; [reflexivity |].
    intros args w'. split.
    + change (hc_fetchUpdate _) with
        (run_operation rt CursorFetchUpdate this
           (mkObserver (S n)
              (Client.observe (client w) (paginationArtifact this) None))).
      by rewrite last_sent_run_operation.
    + change (hc_fetch _) with
        (run_operation rt CursorFetch this
           (mkObserver n
              (Client.observe (client w) (paginationArtifact this) None))).
      by rewrite last_sent_run_operation.
  - subst offset. unfold observers_behind, FragmentStoreOffset_get, bind.
    simpl. split.
    + rewrite lookup_insert_ne by done. by rewrite lookup_insert_eq.
    + by rewrite lookup_insert_eq.
Qed.

(** C10: the forward cursor handle has a [loadNextPage] and no
    [loadPreviousPage], the backward cursor handle a [loadPreviousPage]
    and no [loadNextPage], and the offset handle a [loadNextPage] and no
    backward operation: none of its members is one, and it has no
    property of that name as long as the observer it spreads has none. *)
Theorem navigation_matches_variant
    (rt : Runtime) (this : BasePaginatedFragmentStore)
    (initialValue : option Obj) (w : World) :
  let forward := (store_get rt ForwardCursor this initialValue w).1 in
  let backward := (store_get rt BackwardCursor this initialValue w).1 in
  let offset := (store_get rt Offset this initialValue w).1 in
  ((exists h, forward !! "loadNextPage" = Some (LoadNextPage h))
   /\ forward !! "loadPreviousPage" = None
   /\ map_Forall (fun _ m => is_LoadPreviousPage m = false) forward)
  /\ ((exists h, backward !! "loadPreviousPage" = Some (LoadPreviousPage h))
      /\ backward !! "loadNextPage" = None
      /\ map_Forall (fun _ m => is_LoadNextPage m = false) backward)
  /\ ((exists h, offset !! "loadNextPage" = Some (LoadNextPage h))
      /\ map_Forall (fun _ m => is_LoadPreviousPage m = false) offset
      /\ ("loadPreviousPage" ∉ observer_own_keys rt ->
          offset !! "loadPreviousPage" = None)).
Proof.
  intros forward backward offset. split; [| split].
  - split; [eexists; reflexivity |]. split; [reflexivity |].
    repeat (apply map_Forall_insert_2; [reflexivity |]).
    apply map_Forall_empty.
  - split; [eexists; reflexivity |]. split; [reflexivity |].
    repeat (apply map_Forall_insert_2; [reflexivity |]).
    apply map_Forall_empty.
  - subst offset. simpl. unfold FragmentStoreOffset_get, bind. simpl.
    split; [| split].
    + eexists. by rewrite lookup_insert_eq.
    + repeat (apply map_Forall_insert_2; [reflexivity |]).
      by apply (observer_members_fields rt _
                  (fun m => is_LoadPreviousPage m = false)).
    + intros Hnone. rewrite !lookup_insert_ne by done.
      rewrite observer_members_lookup. by rewrite decide_False.
Qed.

Lemma navigation_matches_variant_witness :
  ("loadPreviousPage" ∉ observer_own_keys Scenario.runtime)
  /\ ((store_get Scenario.runtime Offset Scenario.user_store None
         Scenario.keyed_world).1 : gmap string Member) !! "loadPreviousPage"
     = None.
Proof.
  assert (Hnone : "loadPreviousPage" ∉ observer_own_keys Scenario.runtime).
  { simpl. intros Hin. apply elem_of_cons in Hin as [Heq | Hin].
    - discriminate Heq.
    - by apply elem_of_nil in Hin. }
  split; [exact Hnone |].
  exact (proj2 (proj2 (proj2 (proj2
           (navigation_matches_variant Scenario.runtime Scenario.user_store
              None Scenario.keyed_world)))) Hnone).
Defined.

End FragmentProps.

(** * Further properties of the client constructor *)

Module ClientExtra.
Import Client.


(** When [fetchParams] is given, its plugin sits right after
    [inputsPlugin], ahead of everything a pipeline or a plugin list
    brings. *)
Theorem fetchParamsPlugin_is_second
    (injected : list ClientPlugin) (args : ConstructorArgs)
    (fp : FetchParamFn) (c : HoudiniClient) :
  fetchParams args = Some fp ->
  constructor injected args = Ok c ->
  exists rest,
    client_plugins c = inputsPlugin :: fetchParamsPlugin fp :: rest
    /\ rest = match pipeline args with
              | Some p => p tt
              | None => standard_pipeline injected (plugins args)
              end.
Proof.
  intros Hfp Hc. apply ClientProps.constructor_ok_inv in Hc as [_ Hl].
  rewrite Hfp in Hl. eexists. split; [exact Hl | reflexivity].
Qed.

Lemma fetchParamsPlugin_is_second_witness :
  let args := mkArgs "https://api.test/graphql" (Some (mkFetchParamFn "auth"))
                     (Some [customPlugin "logger"]) None in
  fetchParams args = Some (mkFetchParamFn "auth")
  /\ exists c, constructor [] args = Ok c
              /\ client_plugins c !! 1 = Some (fetchParamsPlugin (mkFetchParamFn "auth")).
Proof.
  intros args. split; [reflexivity |]. eexists. split; [reflexivity |].
  destruct (fetchParamsPlugin_is_second [] args (mkFetchParamFn "auth") _
              eq_refl eq_refl) as (rest & Hl & _).
  rewrite Hl. reflexivity.
Defined.

(** Without a [pipeline], the last plugin is the default fetch plugin,
    whatever the caller's plugins and the injected ones are: a fetch plugin
    among the caller's plugins does not replace it. *)
Theorem standard_pipeline_ends_with_fetchPlugin
    (injected : list ClientPlugin) (args : ConstructorArgs) (c : HoudiniClient) :
  pipeline args = None ->
  constructor injected args = Ok c ->
  last (client_plugins c) = Some (fetchPlugin None).
Proof.
  intros Hp Hc. apply ClientProps.constructor_ok_inv in Hc as [_ Hl].
  rewrite Hp in Hl. rewrite Hl. unfold standard_pipeline.
  rewrite !app_comm_cons, !app_assoc. apply last_snoc.
Qed.

Lemma standard_pipeline_ends_with_fetchPlugin_witness :
  let args := mkArgs "https://api.test/graphql" None
                     (Some [fetchPlugin (Some (mkRequestHandler "mock"))]) None in
  pipeline args = None
  /\ exists c, constructor [customPlugin "svelte"] args = Ok c
              /\ last (client_plugins c) = Some (fetchPlugin None).
Proof.
  intros args. split; [reflexivity |]. eexists. split; [reflexivity |].
  exact (standard_pipeline_ends_with_fetchPlugin [customPlugin "svelte"] args _
           eq_refl eq_refl).
Defined.


(** With a custom [pipeline] the client can reach the network only through
    the pipeline: its plugin list holds a fetch plugin exactly when the
    list the pipeline returns holds one. *)
Theorem custom_pipeline_fetches_iff
    (injected : list ClientPlugin) (args : ConstructorArgs)
    (p : unit -> list ClientPlugin) (c : HoudiniClient) :
  pipeline args = Some p ->
  constructor injected args = Ok c ->
  existsb is_fetchPlugin (client_plugins c) = existsb is_fetchPlugin (p tt).
Proof.
  intros Hp Hc. apply ClientProps.constructor_ok_inv in Hc as [_ Hl].
  rewrite Hp in Hl. rewrite Hl. simpl.
  destruct (fetchParams args); simpl; reflexivity.
Qed.

Lemma custom_pipeline_fetches_iff_witness :
  let args := mkArgs "https://api.test/graphql" (Some (mkFetchParamFn "auth"))
                     None (Some (fun _ => [])) in
  pipeline args = Some (fun _ => [])
  /\ exists c, constructor [customPlugin "svelte"] args = Ok c
              /\ existsb is_fetchPlugin (client_plugins c) = false.
Proof.
  intros args. split; [reflexivity |]. eexists. split; [reflexivity |].
  exact (custom_pipeline_fetches_iff [customPlugin "svelte"] args (fun _ => []) _
           eq_refl eq_refl).
Defined.

End ClientExtra.

(** * Further properties of the paginated fragment stores *)

Module FragmentExtra.
Import Client Fragment.

(** ** [queryVariables] *)

(** The key-field branch: a configured type without resolver, read off a
    cached object. *)
Lemma queryVariables_keys rt this store w tc v :
  let target := default "" (targetType <$> refetch (paginationArtifact this)) in
  types (config w) ≫= (fun ts => ts !! target) = Some tc ->
  resolve tc ≫= arguments = None ->
  data (current w (observer_id store)) = Some v ->
  queryVariables rt this store w
  = (Fulfilled
       (fromEntries ((fun key => (key, default JSUndefined (v !! key)))
                       <$> keyFieldsForType rt (config w) target)), w).
Proof.
  intros target Htc Hnone Hv. rewrite FragmentProps.queryVariables_run.
  unfold queryVariables_body. fold target. rewrite Htc, Hnone, Hv.
  rewrite FragmentProps.key_entries_object. reflexivity.
Qed.

(** [queryVariables] rejects with the missing-configuration error exactly
    when the config file has no entry for the target type (the empty name
    when the artifact has no [refetch]); the error names the target type
    and the pagination guide of the documentation site. *)
Theorem queryVariables_unconfigured_iff
    (rt : Runtime) (this : BasePaginatedFragmentStore)
    (store : DocumentObserver) (w : World) :
  let target := targetType <$> refetch (paginationArtifact this) in
  (queryVariables rt this store w).1
  = Rejected
      (mkError ("Missing type refetch configuration for "
                +:+ default "undefined" target
                +:+ ". For more information, see " +:+ siteURL rt
                +:+ "/guides/pagination#paginated-fragments"))
  <-> types (config w) ≫= (fun ts => ts !! default "" target) = None.
Proof.
  intros target. rewrite FragmentProps.queryVariables_run. simpl.
  unfold queryVariables_body. fold target.
  destruct (types (config w) ≫= (fun ts => ts !! default "" target))
    as [tc |] eqn:Htc; [| by split].
  split; [| discriminate]. simpl.
  destruct (resolve tc ≫= arguments) as [resolver |]; simpl; [discriminate |].
  destruct (data (current w (observer_id store))) as [v |].
  - rewrite FragmentProps.key_entries_object. discriminate.
  - destruct (keyFieldsForType rt (config w) (default "" target)) as [| key rest];
      simpl; discriminate.
Qed.

(** With no data in the store ([data: null]) and no resolver, reading the
    first key field throws: the promise is rejected.  With no key field to
    read it is fulfilled with the empty object, data or not. *)
Theorem queryVariables_without_data
    (rt : Runtime) (this : BasePaginatedFragmentStore)
    (store : DocumentObserver) (w : World) (tc : TypeConfig) :
  let target := default "" (targetType <$> refetch (paginationArtifact this)) in
  types (config w) ≫= (fun ts => ts !! target) = Some tc ->
  resolve tc ≫= arguments = None ->
  (data (current w (observer_id store)) = None ->
   keyFieldsForType rt (config w) target <> [] ->
   exists e, queryVariables rt this store w = (Rejected e, w))
  /\ (keyFieldsForType rt (config w) target = [] ->
      queryVariables rt this store w = (Fulfilled ∅, w)).
Proof.
  intros target Htc Hnone. split.
  - intros Hdata Hkeys. rewrite FragmentProps.queryVariables_run.
    unfold queryVariables_body. fold target. rewrite Htc, Hnone, Hdata.
    destruct (keyFieldsForType rt (config w) target) as [| key rest]; [done |].
    eexists. reflexivity.
  - intros Hkeys. rewrite FragmentProps.queryVariables_run.
    unfold queryVariables_body. fold target. rewrite Htc, Hnone, Hkeys.
    reflexivity.
Qed.

Lemma queryVariables_without_data_witness :
  (exists e, queryVariables Scenario.runtime Scenario.user_store
               Scenario.user_observer Scenario.null_world
             = (Rejected e, Scenario.null_world))
  /\ queryVariables Scenario.runtime Scenario.user_store
       Scenario.user_observer Scenario.keyless_null_world
     = (Fulfilled ∅, Scenario.keyless_null_world).
Proof.
  split.
  - apply (proj1 (queryVariables_without_data Scenario.runtime
             Scenario.user_store Scenario.user_observer Scenario.null_world
             (mkTypeConfig ["id"] None) eq_refl eq_refl));
      [reflexivity | discriminate].
  - apply (proj2 (queryVariables_without_data Scenario.runtime
             Scenario.user_store Scenario.user_observer
             Scenario.keyless_null_world
             (mkTypeConfig [] None) eq_refl eq_refl)).
    reflexivity.
Defined.



(** A resolver that returns a falsy value ([undefined], [null], [false],
    [0], the empty string) contributes no variable: the promise is
    fulfilled with the empty object. *)
Theorem queryVariables_falsy_resolver
    (rt : Runtime) (this : BasePaginatedFragmentStore)
    (store : DocumentObserver) (w : World) (tc : TypeConfig)
    (resolver : JSValue -> JSValue) :
  let target := default "" (targetType <$> refetch (paginationArtifact this)) in
  types (config w) ≫= (fun ts => ts !! target) = Some tc ->
  resolve tc ≫= arguments = Some resolver ->
  truthy (resolver (js_of_data (data (current w (observer_id store))))) = false ->
  queryVariables rt this store w = (Fulfilled ∅, w).
Proof.
  intros target Htc Hres Hfalsy. rewrite FragmentProps.queryVariables_run.
  unfold queryVariables_body. fold target. rewrite Htc, Hres.
  unfold js_or. rewrite Hfalsy. reflexivity.
Qed.

Lemma queryVariables_falsy_resolver_witness :
  queryVariables Scenario.runtime Scenario.user_store Scenario.user_observer
    Scenario.silent_world
  = (Fulfilled ∅, Scenario.silent_world).
Proof.
  exact (queryVariables_falsy_resolver Scenario.runtime Scenario.user_store
           Scenario.user_observer Scenario.silent_world
           (mkTypeConfig ["id"] (Some (mkResolve (Some Scenario.silent_resolver))))
           Scenario.silent_resolver eq_refl eq_refl eq_refl).
Defined.

(** Objects built from the same keys with the same values are equal. *)
Lemma fromEntries_keys_ext (f g : string -> JSValue) (ks ks' : list string) :
  (forall k, k ∈ ks <-> k ∈ ks') ->
  (forall k, k ∈ ks -> f k = g k) ->
  fromEntries ((fun key => (key, f key)) <$> ks)
  = fromEntries ((fun key => (key, g key)) <$> ks').
Proof.
  intros Hks Hfg. apply map_eq. intros k.
  rewrite !FragmentProps.lookup_fromEntries_keys.
  destruct (decide (k ∈ ks)) as [Hin | Hnin], (decide (k ∈ ks')) as [Hin' | Hnin'].
  - by rewrite Hfg.
  - exfalso. apply Hnin'. by apply Hks.
  - exfalso. apply Hnin. by apply Hks.
  - reflexivity.
Qed.

(** Without a resolver, only the key fields of the cached value count: two
    stores whose cached values agree on every key field of the type get
    the same variables, however the values differ elsewhere. *)
Theorem queryVariables_reads_key_fields_only
    (rt : Runtime) (this : BasePaginatedFragmentStore)
    (store store' : DocumentObserver) (w : World) (tc : TypeConfig)
    (v v' : Obj) :
  let target := default "" (targetType <$> refetch (paginationArtifact this)) in
  types (config w) ≫= (fun ts => ts !! target) = Some tc ->
  resolve tc ≫= arguments = None ->
  data (current w (observer_id store)) = Some v ->
  data (current w (observer_id store')) = Some v' ->
  (forall k, k ∈ keyFieldsForType rt (config w) target -> v !! k = v' !! k) ->
  (queryVariables rt this store w).1 = (queryVariables rt this store' w).1.
Proof.
  intros target Htc Hnone Hv Hv' Hagree.
  rewrite (queryVariables_keys rt this store w tc v Htc Hnone Hv).
  rewrite (queryVariables_keys rt this store' w tc v' Htc Hnone Hv').
  simpl. f_equal. apply fromEntries_keys_ext; [done |].
  intros k Hk. by rewrite (Hagree k Hk).
Qed.

(** The order in which the key fields are listed, and a key field listed
    twice, make no difference to the variables. *)
Theorem queryVariables_key_order_irrelevant
    (rt rt' : Runtime) (this : BasePaginatedFragmentStore)
    (store : DocumentObserver) (w : World) (tc : TypeConfig) (v : Obj) :
  let target := default "" (targetType <$> refetch (paginationArtifact this)) in
  types (config w) ≫= (fun ts => ts !! target) = Some tc ->
  resolve tc ≫= arguments = None ->
  data (current w (observer_id store)) = Some v ->
  (forall k, k ∈ keyFieldsForType rt (config w) target
             <-> k ∈ keyFieldsForType rt' (config w) target) ->
  (queryVariables rt this store w).1 = (queryVariables rt' this store w).1.
Proof.
  intros target Htc Hnone Hv Hsame.
  rewrite (queryVariables_keys rt this store w tc v Htc Hnone Hv).
  rewrite (queryVariables_keys rt' this store w tc v Htc Hnone Hv).
  simpl. f_equal. by apply fromEntries_keys_ext.
Qed.

(** Without a resolver the variables have one property per key field, no
    more and no less: a key field the cached value lacks is still there,
    holding [undefined]. *)
Theorem queryVariables_domain
    (rt : Runtime) (this : BasePaginatedFragmentStore)
    (store : DocumentObserver) (w : World) (tc : TypeConfig) (v : Obj) :
  let target := default "" (targetType <$> refetch (paginationArtifact this)) in
  types (config w) ≫= (fun ts => ts !! target) = Some tc ->
  resolve tc ≫= arguments = None ->
  data (current w (observer_id store)) = Some v ->
  exists m,
    (queryVariables rt this store w).1 = Fulfilled m
    /\ dom m = list_to_set (keyFieldsForType rt (config w) target)
    /\ (forall k, k ∈ keyFieldsForType rt (config w) target ->
                  v !! k = None -> m !! k = Some JSUndefined).
Proof.
  intros target Htc Hnone Hv.
  rewrite (queryVariables_keys rt this store w tc v Htc Hnone Hv).
  eexists. split; [reflexivity |]. split.
  - apply set_eq. intros k.
    rewrite elem_of_dom, FragmentProps.lookup_fromEntries_keys, elem_of_list_to_set.
    case_decide as Hin.
    + split; [intros _; exact Hin | intros _; by eexists].
    + split; [intros [? Hsome]; discriminate Hsome | intros Hin'; by destruct Hin].
  - intros k Hk Hmissing.
    rewrite FragmentProps.lookup_fromEntries_keys, decide_True by done.
    by rewrite Hmissing.
Qed.

Lemma queryVariables_reads_key_fields_only_witness :
  (queryVariables Scenario.runtime Scenario.user_store Scenario.user_observer
     Scenario.two_users_world).1
  = (queryVariables Scenario.runtime Scenario.user_store Scenario.second_observer
       Scenario.two_users_world).1.
Proof.
  apply (queryVariables_reads_key_fields_only Scenario.runtime
           Scenario.user_store Scenario.user_observer Scenario.second_observer
           Scenario.two_users_world (mkTypeConfig ["id"] None)
           Scenario.cached_user Scenario.detailed_user);
    try reflexivity.
  intros k Hk. apply elem_of_cons in Hk as [-> | Hk]; [reflexivity |].
  by apply elem_of_nil in Hk.
Defined.

Lemma queryVariables_key_order_irrelevant_witness :
  (queryVariables Scenario.runtime Scenario.user_store Scenario.user_observer
     Scenario.keyed_world).1
  = (queryVariables Scenario.doubled_runtime Scenario.user_store
       Scenario.user_observer Scenario.keyed_world).1.
Proof.
  apply (queryVariables_key_order_irrelevant Scenario.runtime
           Scenario.doubled_runtime Scenario.user_store Scenario.user_observer
           Scenario.keyed_world (mkTypeConfig ["id"] None) Scenario.cached_user);
    try reflexivity.
  intros k. change (k ∈ ["id"] <-> k ∈ ["id"; "id"]).
  rewrite !elem_of_cons. tauto.
Defined.

Lemma queryVariables_domain_witness :
  exists m,
    (queryVariables Scenario.runtime Scenario.user_store Scenario.user_observer
       Scenario.anonymous_world).1 = Fulfilled m
    /\ m !! "id" = Some JSUndefined.
Proof.
  destruct (queryVariables_domain Scenario.runtime Scenario.user_store
              Scenario.user_observer Scenario.anonymous_world
              (mkTypeConfig ["id"] None) Scenario.anonymous_user
              eq_refl eq_refl eq_refl) as (m & Hm & _ & Hundef).
  exists m. split; [exact Hm |].
  apply Hundef; [| reflexivity].
  change ("id" ∈ ["id"]). apply elem_of_cons. by left.
Defined.



(** ** The callbacks *)


(** Callbacks do not coalesce: two calls in a row, on the same observer or
    on different ones, leave two sends on record, in call order, and the
    cache parameters and pass-through fields of the second are what they
    would be without the first. *)
Theorem operations_in_sequence
    (rt : Runtime) (op1 op2 : Operation) (this1 this2 : BasePaginatedFragmentStore)
    (o1 o2 : DocumentObserver) (args1 args2 : option SendParams) (w : World) :
  let w1 := (run_operation rt op1 this1 o1 args1 w).2 in
  let w2 := (run_operation rt op2 this2 o2 args2 w1).2 in
  exists p1 p2,
    sent w2 = sent w ++ [(observer_id o1, p1); (observer_id o2, p2)]
    /\ last_sent (run_operation rt op2 this2 o2 args2 w).2
       = Some (observer_id o2, p2)
    /\ cacheParams p1 = operation_cacheParams op1 args1
    /\ cacheParams p2 = operation_cacheParams op2 args2
    /\ others p1 = args_others args1
    /\ others p2 = args_others args2.
Proof.
  intros w1 w2. subst w1 w2.
  rewrite FragmentProps.last_sent_run_operation.
  rewrite !FragmentProps.run_operation_sends. simpl.
  eexists _, _. rewrite <- app_assoc. simpl. repeat split.
Qed.



(** ** [get] *)

(** How many observers a store costs.  [get] of a cursor store creates two
    observers, [get] of the offset store one; no [get] sends anything or
    touches the config, the client or the values the observers hold. *)
Theorem get_allocates
    (rt : Runtime) (cls : StoreClass) (this : BasePaginatedFragmentStore)
    (initialValue : option Obj) (w : World) :
  (store_get rt cls this initialValue w).2
  = mkWorld (config w) (client w)
            (next_observer w
             + match cls with ForwardCursor | BackwardCursor => 2 | Offset => 1 end)
            (current w) (sent w).
Proof.
  destruct cls; simpl;
    unfold FragmentStoreForwardCursor_get, FragmentStoreBackwardCursor_get,
      FragmentStoreOffset_get, FragmentStoreCursor_get, bind, observe,
      getCurrentClient, ret; simpl; f_equal; lia.
Qed.

(** The initial value does not reach the handle: the client's [observe]
    reads [artifact] and [cache] only, so [get] returns the same handle,
    and leaves the same world, whatever initial value it is given. *)
Theorem get_ignores_initialValue
    (rt : Runtime) (cls : StoreClass) (this : BasePaginatedFragmentStore)
    (v v' : option Obj) (w : World) :
  store_get rt cls this v w = store_get rt cls this v' w.
Proof. destruct cls; reflexivity. Qed.

Lemma observer_members_dom rt observer :
  dom (observer_members rt observer) = list_to_set (observer_own_keys rt).
Proof.
  apply set_eq. intros k.
  rewrite elem_of_dom, FragmentProps.observer_members_lookup, elem_of_list_to_set.
  case_decide as Hin.
  - split; [intros _; exact Hin | intros _; by eexists].
  - split; [intros [? Hsome]; discriminate Hsome | intros Hin'; by destruct Hin].
Qed.

(** The property names of the handles.  A cursor handle has [kind], [data],
    [subscribe], [loading], [fetch], [pageInfo] and its one navigation
    operation; the offset handle has the own properties of the observer
    together with [kind], [fetch] and [loadNextPage], and so no [data],
    [loading] or [pageInfo] unless the observer has them. *)
Theorem handle_property_names
    (rt : Runtime) (this : BasePaginatedFragmentStore)
    (initialValue : option Obj) (w : World) :
  let base : gset string :=
    {[ "kind"; "data"; "subscribe"; "loading"; "fetch"; "pageInfo" ]} in
  dom (store_get rt ForwardCursor this initialValue w).1
  = base ∪ {[ "loadNextPage" ]}
  /\ dom (store_get rt BackwardCursor this initialValue w).1
     = base ∪ {[ "loadPreviousPage" ]}
  /\ dom (store_get rt Offset this initialValue w).1
     = list_to_set (observer_own_keys rt) ∪ {[ "kind"; "fetch"; "loadNextPage" ]}.
Proof.
  intros base. subst base. simpl.
  unfold FragmentStoreForwardCursor_get, FragmentStoreBackwardCursor_get,
    FragmentStoreOffset_get, FragmentStoreCursor_get, bind, ret. simpl.
  rewrite !dom_insert_L, dom_empty_L, observer_members_dom.
  repeat split; apply set_eq; intros k;
    rewrite ?elem_of_union, ?elem_of_singleton, ?elem_of_empty; tauto.
Qed.

(** In the offset handle [kind], [fetch] and [loadNextPage] are the
    store's own, also when the observer has a property of that name; every
    other property is the observer's. *)
Theorem offset_handle_members
    (rt : Runtime) (this : BasePaginatedFragmentStore)
    (initialValue : option Obj) (w : World) :
  let handle := (store_get rt Offset this initialValue w).1 in
  let observer :=
    mkObserver (next_observer w)
               (Client.observe (client w) (paginationArtifact this) None) in
  handle !! "kind" = Some KindTag
  /\ handle !! "fetch" = Some (Fetch (offsetHandlers_config rt this observer))
  /\ handle !! "loadNextPage"
     = Some (LoadNextPage (offsetHandlers_config rt this observer))
  /\ (forall k,
        k <> "kind" -> k <> "fetch" -> k <> "loadNextPage" ->
        handle !! k
        = if decide (k ∈ observer_own_keys rt)
          then Some (ObserverField observer k) else None).
Proof.
  intros handle observer. subst handle. simpl.
  unfold FragmentStoreOffset_get, bind, ret. simpl. fold observer.
  split; [| split; [| split]].
  - rewrite !lookup_insert_ne by done. by rewrite lookup_insert_eq.
  - rewrite lookup_insert_ne by done. by rewrite lookup_insert_eq.
  - by rewrite lookup_insert_eq.
  - intros k Hkind Hfetch Hnext.
    rewrite !lookup_insert_ne by done.
    apply FragmentProps.observer_members_lookup.
Qed.

Lemma offset_handle_members_witness :
  ((store_get Scenario.runtime Offset Scenario.user_store None
      Scenario.keyed_world).1 : gmap string Member) !! "state"
  = Some (ObserverField
            (mkObserver 1 (Client.observe Scenario.api_client
                             Scenario.user_artifact None))
            "state").
Proof.
  exact (proj2 (proj2 (proj2
           (offset_handle_members Scenario.runtime Scenario.user_store None
              Scenario.keyed_world)))
           "state" ltac:(discriminate) ltac:(discriminate) ltac:(discriminate)).
Defined.

(** Every observer behind a member of a handle was created by the [get]
    call that returned the handle. *)
Lemma store_get_fresh rt cls this initialValue w :
  map_Forall
    (fun _ m =>
       Forall (fun i => next_observer w <= i
                        < next_observer (store_get rt cls this initialValue w).2)
              (member_observers m))
    (store_get rt cls this initialValue w).1.
Proof.
  rewrite get_allocates. simpl.
  destruct cls; simpl;
    unfold FragmentStoreForwardCursor_get, FragmentStoreBackwardCursor_get,
      FragmentStoreOffset_get, FragmentStoreCursor_get, bind, ret; simpl.
  - repeat (apply map_Forall_insert_2; [simpl; repeat constructor; lia |]).
    apply map_Forall_empty.
  - repeat (apply map_Forall_insert_2; [simpl; repeat constructor; lia |]).
    apply map_Forall_empty.
  - repeat (apply map_Forall_insert_2; [simpl; repeat constructor; lia |]).
    apply (FragmentProps.observer_members_fields rt _
             (fun m => Forall _ (member_observers m))).
    intros key. simpl. repeat constructor; lia.
Qed.

(** A handle captures no observer that existed before: the observers
    behind its members are among those its [get] call created. *)
Theorem handle_observers_are_fresh
    (rt : Runtime) (cls : StoreClass) (this : BasePaginatedFragmentStore)
    (initialValue : option Obj) (w : World) :
  map_Forall
    (fun _ m =>
       Forall (fun i => next_observer w <= i
                        < next_observer (store_get rt cls this initialValue w).2)
              (member_observers m))
    (store_get rt cls this initialValue w).1.
Proof. apply store_get_fresh. Qed.

(** Handles do not share observers: the observers behind a handle all come
    before the observers behind a handle obtained later, whichever stores
    the two handles are taken from. *)
Theorem successive_handles_share_no_observer
    (rt : Runtime) (cls1 cls2 : StoreClass)
    (this1 this2 : BasePaginatedFragmentStore)
    (v1 v2 : option Obj) (w : World)
    (k1 k2 : string) (m1 m2 : Member) (i j : nat) :
  let first := store_get rt cls1 this1 v1 w in
  let second := store_get rt cls2 this2 v2 first.2 in
  first.1 !! k1 = Some m1 ->
  second.1 !! k2 = Some m2 ->
  i ∈ member_observers m1 ->
  j ∈ member_observers m2 ->
  i < j.
Proof.
  intros first second H1 H2 Hi Hj.
  pose proof (store_get_fresh rt cls1 this1 v1 w k1 m1 H1) as F1.
  pose proof (store_get_fresh rt cls2 this2 v2 first.2 k2 m2 H2) as F2.
  rewrite Forall_forall in F1, F2.
  specialize (F1 i Hi). specialize (F2 j Hj). fold first in F1. lia.
Qed.

Lemma successive_handles_share_no_observer_witness : 1 < 3.
Proof.
  apply (successive_handles_share_no_observer Scenario.runtime
           ForwardCursor Offset Scenario.user_store Scenario.user_store
           None None Scenario.keyed_world "fetch" "fetch"
           (Fetch (storeHandlers_config Scenario.runtime Scenario.user_store
                     (mkObserver 1 (Client.observe Scenario.api_client
                                      Scenario.user_artifact None))))
           (Fetch (offsetHandlers_config Scenario.runtime Scenario.user_store
                     (mkObserver 3 (Client.observe Scenario.api_client
                                      Scenario.user_artifact None))))
           1 3).
  - reflexivity.
  - reflexivity.
  - simpl. apply elem_of_cons. by left.
  - simpl. apply elem_of_cons. by left.
Defined.

(** The handlers configurations behind a handle: each is the one
    [storeHandlers] or the offset store builds on an observer that [get]
    obtained from the current client for the pagination artifact. *)
Lemma store_get_configs rt cls this initialValue w :
  map_Forall
    (fun _ m =>
       forall h, member_config m = Some h ->
         exists observer,
           observer_args observer
           = Client.observe (client w) (paginationArtifact this) None
           /\ (h = storeHandlers_config rt this observer
               \/ h = offsetHandlers_config rt this observer))
    (store_get rt cls this initialValue w).1.
Proof.
  destruct cls; simpl;
    unfold FragmentStoreForwardCursor_get, FragmentStoreBackwardCursor_get,
      FragmentStoreOffset_get, FragmentStoreCursor_get, bind, ret; simpl.
  - repeat (apply map_Forall_insert_2;
            [simpl; intros h Hh;
             first [ discriminate Hh
                   | inversion Hh; subst; eexists;
                     (split; [| left; reflexivity]); reflexivity ] |]).
    apply map_Forall_empty.
  - repeat (apply map_Forall_insert_2;
            [simpl; intros h Hh;
             first [ discriminate Hh
                   | inversion Hh; subst; eexists;
                     (split; [| left; reflexivity]); reflexivity ] |]).
    apply map_Forall_empty.
  - repeat (apply map_Forall_insert_2;
            [simpl; intros h Hh;
             first [ discriminate Hh
                   | inversion Hh; subst; eexists;
                     (split; [| right; reflexivity]); reflexivity ] |]).
    apply (FragmentProps.observer_members_fields rt _
             (fun m => forall h, member_config m = Some h -> _)).
    intros key h Hh. discriminate Hh.
Qed.

(** The observers behind a handle run the pipeline of the current client:
    each is built for the store's pagination artifact with the client's
    plugin list and the cache on; when the client came out of the
    constructor, the first plugin they run is [inputsPlugin]. *)
Theorem handle_observers_run_client_pipeline
    (injected : list ClientPlugin) (args : ConstructorArgs)
    (rt : Runtime) (cls : StoreClass) (this : BasePaginatedFragmentStore)
    (initialValue : option Obj) (w : World)
    (k : string) (m : Member) (h : HandlerConfig) :
  constructor injected args = Ok (client w) ->
  (store_get rt cls this initialValue w).1 !! k = Some m ->
  member_config m = Some h ->
  let built := observer_args (hc_observer h) in
  do_artifact built = paginationArtifact this
  /\ do_client built = client w
  /\ do_plugins built = client_plugins (client w)
  /\ do_cache built = true
  /\ head (do_plugins built) = Some inputsPlugin.
Proof.
  intros Hclient Hk Hm built. subst built.
  destruct (store_get_configs rt cls this initialValue w k m Hk h Hm)
    as (observer & Hargs & [-> | ->]); simpl; rewrite Hargs; simpl;
    apply ClientProps.constructor_ok_inv in Hclient as [_ Hl];
    rewrite Hl; done.
Qed.

Lemma handle_observers_run_client_pipeline_witness :
  constructor [] Scenario.plain_args = Ok (client Scenario.keyed_world)
  /\ head (do_plugins
             (observer_args
                (hc_observer
                   (storeHandlers_config Scenario.runtime Scenario.user_store
                      (mkObserver 2 (Client.observe Scenario.api_client
                                       Scenario.user_artifact None))))))
     = Some inputsPlugin.
Proof.
  split; [reflexivity |].
  apply (handle_observers_run_client_pipeline [] Scenario.plain_args
           Scenario.runtime ForwardCursor Scenario.user_store None
           Scenario.keyed_world "loadNextPage"
           (LoadNextPage
              (storeHandlers_config Scenario.runtime Scenario.user_store
                 (mkObserver 2 (Client.observe Scenario.api_client
                                  Scenario.user_artifact None)))));
    reflexivity.
Defined.

(** The callbacks in a handle send through the observer they were handed
    to the handlers with: for every handlers configuration behind a handle,
    [fetchUpdate] and [fetch] each record their send on that
    configuration's own observer, the first with [applyUpdates] true, the
    second with the caller's cache parameters. *)
Theorem handle_callbacks_use_their_observer
    (rt : Runtime) (cls : StoreClass) (this : BasePaginatedFragmentStore)
    (initialValue : option Obj) (w : World)
    (k : string) (m : Member) (h : HandlerConfig)
    (args : option SendParams) (w' : World) :
  (store_get rt cls this initialValue w).1 !! k = Some m ->
  member_config m = Some h ->
  (fst <$> last_sent (hc_fetchUpdate h args w').2) = Some (observer_id (hc_observer h))
  /\ (fst <$> last_sent (hc_fetch h args w').2) = Some (observer_id (hc_observer h))
  /\ last_cacheParams (hc_fetchUpdate h args w').2 = Some (mkCacheParams (Some true))
  /\ last_cacheParams (hc_fetch h args w').2 = args_cacheParams args.
Proof.
  intros Hk Hm.
  destruct (store_get_configs rt cls this initialValue w k m Hk h Hm)
    as (observer & _ & [-> | ->]);
    unfold storeHandlers_config, offsetHandlers_config, last_cacheParams;
    cbn [hc_fetchUpdate hc_fetch hc_observer].
  - change (storeHandlers_fetchUpdate rt this observer)
      with (run_operation rt CursorFetchUpdate this observer).
    change (storeHandlers_fetch rt this observer)
      with (run_operation rt CursorFetch this observer).
    rewrite !FragmentProps.last_sent_run_operation. done.
  - change (offset_fetchUpdate_callback rt this observer)
      with (run_operation rt OffsetFetchUpdate this observer).
    change (offset_fetch_callback rt this observer)
      with (run_operation rt OffsetFetch this observer).
    rewrite !FragmentProps.last_sent_run_operation. done.
Qed.

Lemma handle_callbacks_use_their_observer_witness :
  let h := offsetHandlers_config Scenario.runtime Scenario.user_store
             (mkObserver 1 (Client.observe Scenario.api_client
                              Scenario.user_artifact None)) in
  (fst <$> last_sent (hc_fetchUpdate h (Some Scenario.offset_page_args)
                        Scenario.busy_world).2)
  = Some 1.
Proof.
  intros h.
  apply (handle_callbacks_use_their_observer Scenario.runtime Offset
           Scenario.user_store None Scenario.keyed_world "loadNextPage"
           (LoadNextPage h) h (Some Scenario.offset_page_args)
           Scenario.busy_world);
    reflexivity.
Defined.

End FragmentExtra.
